(** * install_Krach2025-poremaps.py: the provisioning script, embedded and verified

    The script is a straight-line sequence of calls into the operating
    system (directory changes, a download, an archive extraction, shell
    commands) guarded by a few [try]/[except] blocks.  It is embedded as a
    state-and-exception monad over an abstract machine:

    - every library call the script makes ([os.chdir], [requests.get],
      [os.system], ...) is a primitive whose answer is given by the
      machine, a record of oracles over an arbitrary machine state;
    - every primitive call and every [print] is appended to a trace, so
      "which operations were performed, in which order" is a value;
    - Python exceptions are values: an instance of [Exception] (what
      [except Exception] catches) or [SystemExit] (what [sys.exit] raises,
      which [except Exception] does not catch).

    Asynchronous signals ([KeyboardInterrupt]) are outside the model. *)

From Stdlib Require Import String Ascii List ZArith Bool Arith Lia.
Import ListNotations.
Local Open Scope string_scope.

Set Implicit Arguments.

(** ** Strings as Python uses them *)

(** The newline written [\n] in the script's string literals. *)
Definition nl : string := String (ascii_of_nat 10) "".

(** The NUL character; CPython refuses it in anything handed to the C library. *)
Definition nul : ascii := ascii_of_nat 0.

Fixpoint contains_char (c : ascii) (s : string) : bool :=
  match s with
  | EmptyString => false
  | String a s' => Ascii.eqb a c || contains_char c s'
  end.

Definition has_nul (s : string) : bool := contains_char nul s.

(** [s.endswith('/')] *)
Fixpoint ends_with_slash (s : string) : bool :=
  match s with
  | EmptyString => false
  | String a EmptyString => Ascii.eqb a "/"
  | String _ s' => ends_with_slash s'
  end.

(** [posixpath.join(a, b)] for two components: an absolute [b] discards
    [a]; otherwise the two are joined with one separator, which is left out
    when [a] is empty or already ends with one. *)
Definition path_join (a b : string) : string :=
  if String.prefix "/" b then b
  else if (a =? "") || ends_with_slash a then a ++ b
  else a ++ "/" ++ b.

(** ** Exceptions and outcomes *)

(** A raised Python exception.  [Exception cls text] is an instance of
    (a subclass of) [Exception] of class [cls] with [str(e) = text];
    [SystemExit arg] is what [sys.exit(arg)] raises for a string [arg].
    [SystemExit] derives from [BaseException] only. *)
Inductive exn : Type :=
| Exception (cls : string) (text : string)
| SystemExit (arg : string).

Inductive outcome (A : Type) : Type :=
| Returned (a : A)
| Raised (e : exn).
Arguments Raised {A} e.

(** What the interpreter does with the outcome of the main module:
    exit status 0 on normal completion; an uncaught exception (a
    traceback) and [sys.exit] with a string argument both give status 1. *)
Definition exit_status {A} (o : outcome A) : Z :=
  match o with
  | Returned _ => 0
  | Raised _ => 1
  end.

(** What an uncaught [sys.exit(arg)] writes to standard error. *)
Definition stderr_message {A} (o : outcome A) : option string :=
  match o with
  | Raised (SystemExit arg) => Some arg
  | _ => None
  end.

(** The answer of a library call: it completes with a value, or raises an
    exception of class [cls] (an [OSError], a [requests] or [tarfile]
    error, ...: all of them instances of [Exception]). *)
Inductive answer (A : Type) : Type :=
| Done (a : A)
| Failed (cls : string) (text : string).
Arguments Failed {A} cls text.

Definition outcome_of_answer {A} (a : answer A) : outcome A :=
  match a with
  | Done v => Returned v
  | Failed cls text => Raised (Exception cls text)
  end.

(** ** The machine the script runs on *)

Record OS : Type := {
  state : Type;
  response : Type;  (* what [requests.get] returns *)
  tarfile : Type;   (* what [tarfile.open] returns *)
  sys_chdir : string -> state -> answer unit * state;
  sys_getcwd : state -> answer string * state;
  sys_makedirs : string -> state -> answer unit * state;   (* exist_ok=True *)
  sys_isfile : string -> state -> bool;
  sys_access_x : string -> state -> bool;
  sys_shell : string -> state -> Z * state;   (* the C library's system() *)
  net_get : string -> state -> answer response * state;
  tar_open : response -> state -> answer tarfile * state;
  tar_extractall : tarfile -> string -> state -> answer unit * state
}.

(** One entry of the trace per primitive call and per [print]. *)
Inductive event : Type :=
| EvPrint (text : string)
| EvChdir (dir : string)
| EvGetcwd
| EvMakedirs (dir : string)
| EvIsfile (path : string)
| EvAccess (path : string)
| EvSystem (command : string)
| EvHttpGet (url : string)
| EvTarOpen
| EvExtractAll (path : string).

(** The module's global flags (lines 38-40). *)
Record Globals : Type := {
  GET_OPENMPI : bool;
  VERBOSE : bool;
  POREMAPSTEST : bool
}.

Definition set_POREMAPSTEST (b : bool) (g : Globals) : Globals :=
  {| GET_OPENMPI := GET_OPENMPI g; VERBOSE := VERBOSE g; POREMAPSTEST := b |}.

(** The values the script assigns (lines 38-40). *)
Definition script_globals : Globals :=
  {| GET_OPENMPI := true; VERBOSE := true; POREMAPSTEST := true |}.

Definition POREMAPS_GIT_URL : string :=
  "https://git.rwth-aachen.de/david.krach/poremaps.git".

Definition system_mpiCC : string := "/usr/bin/mpiCC".
Definition system_mpirun : string := "/usr/bin/mpirun".

(** [s[i]] on a string: the one-character string at index [i], or
    [IndexError]. *)
Definition py_index (s : string) (i : nat) : outcome string :=
  match String.get i s with
  | Some c => Returned (String c "")
  | None => Raised (Exception "IndexError" "string index out of range")
  end.

(** Line 103: the f-string of the download URL, its two index expressions
    evaluated left to right. *)
Definition ompi_url (ompi_version : string) : outcome string :=
  match py_index ompi_version 0 with
  | Raised e => Raised e
  | Returned major =>
      match py_index ompi_version 2 with
      | Raised e => Raised e
      | Returned branch =>
          Returned ("https://download.open-mpi.org/release/open-mpi/v" ++ major
                    ++ "." ++ branch ++ "/openmpi-" ++ ompi_version ++ ".tar.gz")
      end
  end.

Definition fallback_notice : string :=
  "### Using the system's OpenMPI version." ++ nl ++
  "### It is advised to install your own version." ++ nl ++
  "### See https://www.open-mpi.org/software/ompi/v5.0/ for available versions.".

(** ** The sed program of lines 201 and 251

    [sed -i 's|CLINKER=.*|CLINKER=<compiler>|' makefile] applies, to every
    line of the file, one substitution: the leftmost match of the regular
    expression [CLINKER=.*] (the first occurrence of the text [CLINKER=]
    and, [.*] being greedy, everything after it up to the end of the line)
    is replaced by the replacement text.  The expression is not anchored. *)

(** The part of [line] before the first occurrence of [pat], when there is one. *)
Fixpoint before_first (pat line : string) : option string :=
  if String.prefix pat line then Some ""
  else match line with
       | EmptyString => None
       | String c rest =>
           match before_first pat rest with
           | Some pre => Some (String c pre)
           | None => None
           end
       end.

Definition sed_substitute_line (replacement line : string) : string :=
  match before_first "CLINKER=" line with
  | Some pre => pre ++ replacement
  | None => line
  end.

(** The replacement text stands for itself only when it has none of the
    characters that sed or the shell's single quotes read specially: the
    delimiter [|], [&] (the matched text), the escape character, a newline,
    and the single quote that would end the shell word. *)
Definition sed_plain (s : string) : bool :=
  negb (contains_char "|" s) && negb (contains_char "&" s)
  && negb (contains_char "\" s) && negb (contains_char (ascii_of_nat 10) s)
  && negb (contains_char "'" s) && negb (has_nul s).

(** The file after the command, as a list of lines; [None] when the
    compiler path is not plain, for then the command line is not this sed
    program. *)
Definition sed_clinker (compiler : string) (lines : list string) : option (list string) :=
  if sed_plain compiler
  then Some (map (sed_substitute_line ("CLINKER=" ++ compiler)) lines)
  else None.

(** The command text of lines 201 and 251. *)
Definition sed_command (_ompi_compiler : string) : string :=
  "sed -i 's|CLINKER=.*|CLINKER=" ++ _ompi_compiler ++ "|' makefile".

(** [echo '<line>' >> <file>], the shell's append redirection (lines 265-273). *)
Definition echo_append (line file : string) : string :=
  "echo '" ++ line ++ "' >> " ++ file.

Definition bashrc : string := "/poremaps/.bashrc".
Definition activate_line : string := "source /poremaps/venv/poremaps/bin/activate".
Definition path_line (ompi_src ompi_version : string) : string :=
  "export PATH=" ++ ompi_src ++ "/openmpi-" ++ ompi_version ++ "/build/bin:$PATH".
Definition ld_library_path_line (ompi_src ompi_version : string) : string :=
  "export LD_LIBRARY_PATH=" ++ ompi_src ++ "/openmpi-" ++ ompi_version
  ++ "/build/lib:$LD_LIBRARY_PATH".

(** ** The vocabulary of the specification *)

(** The two messages [_ompi_sanity] ends the process with: the f-strings
    of lines 179 and 185 with the text of the exception raised at lines
    177 and 183. *)
Definition missing_message (path : string) : string :=
  "ERROR: " ++ path ++ " does not exist" ++ nl ++ " error " ++ path ++ " does not exist".

Definition not_executable_message (path : string) : string :=
  "ERROR: " ++ path ++ " is not executable" ++ nl ++ " error " ++ path
  ++ " is not executable".

(** A version string of the form X.Y.Z: three non-empty components
    separated by dots. *)
Definition version_XYZ (v : string) : Prop :=
  exists X Y Z, X <> "" /\ Y <> "" /\ Z <> "" /\ v = X ++ "." ++ Y ++ "." ++ Z.




(** ** The script over a machine *)

Section Script.

Variable os : OS.

(** The running process: the machine's state and the trace so far. *)
Record World : Type := {
  machine : state os;
  events : list event
}.

(** A computation: runs from a world, returns or raises, and leaves a
    world behind either way (effects are not undone by an exception). *)
Definition M (A : Type) : Type := World -> outcome A * World.

Definition ret {A} (a : A) : M A := fun w => (Returned a, w).

Definition raise {A} (e : exn) : M A := fun w => (Raised e, w).

Definition bind {A B} (m : M A) (k : A -> M B) : M B :=
  fun w =>
    match m w with
    | (Returned a, w') => k a w'
    | (Raised e, w') => (Raised e, w')
    end.

Notation "x <- m ;; k" := (bind m (fun x => k))
  (at level 61, m at next level, right associativity).
Notation "m ;; k" := (bind m (fun _ => k))
  (at level 61, right associativity).

(** [try: body / except Exception as e: handler(e)]: the handler runs on
    an [Exception], with [str(e)]; a [SystemExit] passes through. *)
Definition try_except {A} (body : M A) (handler : string -> M A) : M A :=
  fun w =>
    match body w with
    | (Raised (Exception _ text), w') => handler text w'
    | r => r
    end.

(** The value of a pure expression that may raise. *)
Definition lift {A} (o : outcome A) : M A := fun w => (o, w).

Definition log (ev : event) (w : World) (s : state os) : World :=
  {| machine := s; events := events w ++ [ev] |}.

(** A library call: one trace entry, the machine's answer. *)
Definition call {A} (ev : event) (f : state os -> answer A * state os) : M A :=
  fun w =>
    let (a, s) := f (machine w) in (outcome_of_answer a, log ev w s).

Definition print (text : string) : M unit :=
  fun w => (Returned tt, log (EvPrint text) w (machine w)).

Definition sys_exit {A} (arg : string) : M A := raise (SystemExit arg).

Definition os_chdir (dir : string) : M unit := call (EvChdir dir) (sys_chdir os dir).
Definition os_getcwd : M string := call EvGetcwd (sys_getcwd os).
Definition os_makedirs (dir : string) : M unit := call (EvMakedirs dir) (sys_makedirs os dir).
Definition requests_get (url : string) : M (response os) := call (EvHttpGet url) (net_get os url).
Definition tarfile_open (r : response os) : M (tarfile os) := call EvTarOpen (tar_open os r).
Definition extractall (f : tarfile os) (path : string) : M unit :=
  call (EvExtractAll path) (tar_extractall os f path).

Definition os_path_isfile (path : string) : M bool :=
  fun w => (Returned (sys_isfile os path (machine w)), log (EvIsfile path) w (machine w)).

Definition os_access_X_OK (path : string) : M bool :=
  fun w => (Returned (sys_access_x os path (machine w)), log (EvAccess path) w (machine w)).

(** [os.system(command)]: a command with an embedded NUL is refused with
    [ValueError] before any shell is started; otherwise the shell runs and
    its wait status is returned, whatever it is. *)
Definition os_system (command : string) : M Z :=
  if has_nul command
  then raise (Exception "ValueError" "embedded null byte")
  else fun w => let (rc, s) := sys_shell os command (machine w) in
                (Returned rc, log (EvSystem command) w s).

(** *** [run_ompi_install] (lines 53-152) *)

(** Lines 106-138, the body of the [try]: its value is the pair of paths
    assigned at lines 116-117. *)
Definition acquisition_region (g : Globals) (ompi_version ompi_url : string)
  : M (string * string) :=
  print ("### DOWNLOADING OpenMPI " ++ ompi_version ++ " ###") ;;
  tarball <- requests_get ompi_url ;;
  print "### EXTRACTING TARBALL ###" ;;
  file <- tarfile_open tarball ;;
  extractall file "." ;;
  cwd1 <- os_getcwd ;;
  let ompi_compiler := path_join cwd1 ("openmpi-" ++ ompi_version ++ "/build/bin/mpiCC") in
  cwd2 <- os_getcwd ;;
  let ompi_exec := path_join cwd2 ("openmpi-" ++ ompi_version ++ "/build/bin/mpirun") in
  os_chdir ("openmpi-" ++ ompi_version) ;;
  os_makedirs "build" ;;
  os_chdir "build" ;;
  print "### CONFIGURING OpenMPI ###" ;;
  (if VERBOSE g
   then os_system "../configure --prefix=$PWD"
   else os_system "../configure --prefix=$PWD > ompi_config.log") ;;
  print "### BUILDING & INSTALLING OpenMPI ###" ;;
  (if VERBOSE g
   then os_system "make -j4; make install"
   else os_system "make -j4 > ompi_build.log; make install > ompi_install.log") ;;
  ret (ompi_compiler, ompi_exec).

(** Lines 140-144, the handler. *)
Definition acquisition_fallback (text : string) : M (string * string) :=
  print ("### ERROR: " ++ text ++ nl ++ fallback_notice) ;;
  ret (system_mpiCC, system_mpirun).

Definition run_ompi_install (g : Globals) (_GET_OMPI : bool)
    (_ompi_src ompi_version : string) : M (string * string * string) :=
  paths <-
    (if _GET_OMPI then
       os_chdir _ompi_src ;;
       ompi_url <- lift (ompi_url ompi_version) ;;
       try_except (acquisition_region g ompi_version ompi_url) acquisition_fallback
     else
       print fallback_notice ;;
       ret (system_mpiCC, system_mpirun)) ;;
  ret (fst paths, snd paths, ompi_version).

(** *** [_ompi_sanity] (lines 155-185) *)

Definition _ompi_sanity (_exec : string) : M unit :=
  try_except
    (isfile <- os_path_isfile _exec ;;
     if negb isfile
     then raise (Exception "FileNotFoundError" (_exec ++ " does not exist"))
     else ret tt)
    (fun e => sys_exit ("ERROR: " ++ _exec ++ " does not exist" ++ nl ++ " error " ++ e)) ;;
  try_except
    (executable <- os_access_X_OK _exec ;;
     if negb executable
     then raise (Exception "PermissionError" (_exec ++ " is not executable"))
     else ret tt)
    (fun e => sys_exit ("ERROR: " ++ _exec ++ " is not executable" ++ nl ++ " error " ++ e)).

(** *** [run_pormaps_install], first definition (lines 187-202) *)

Definition run_pormaps_install_first
    (_ompi_compiler _ompi_exec _poremaps_src poremaps_git_url : string) : M unit :=
  _ompi_sanity _ompi_compiler ;;
  _ompi_sanity _ompi_exec ;;
  os_chdir _poremaps_src ;;
  try_except
    (os_system ("git clone " ++ poremaps_git_url) ;; ret tt)
    (fun e => sys_exit ("ERROR: cloning " ++ poremaps_git_url ++ " failed." ++ nl
                        ++ " error-> " ++ e)) ;;
  os_chdir "poremaps/src" ;;
  os_system (sed_command _ompi_compiler) ;;
  os_system "make" ;;
  ret tt.

(** *** [run_pormaps_install], second definition (lines 205-254), the one
    the name is bound to when the module calls it *)

Definition run_pormaps_install
    (_ompi_compiler _ompi_exec _poremaps_src poremaps_git_url : string) : M unit :=
  _ompi_sanity _ompi_compiler ;;
  _ompi_sanity _ompi_exec ;;
  os_chdir _poremaps_src ;;
  try_except
    (os_system ("git clone " ++ poremaps_git_url) ;; ret tt)
    (fun e => sys_exit ("ERROR: Cloning " ++ poremaps_git_url ++ " failed." ++ nl
                        ++ "Error: " ++ e)) ;;
  os_chdir "poremaps/src" ;;
  os_system (sed_command _ompi_compiler) ;;
  os_system "make" ;;
  ret tt.

(** *** The module's top level *)

(** Lines 265-273: the lines appended to the shell startup file. *)
Definition register_environment (g : Globals)
    (ompi_exec ompi_src ompi_version : string) : M unit :=
  os_system (echo_append activate_line bashrc) ;;
  if GET_OPENMPI g && negb (ompi_exec =? system_mpirun)
  then
    os_system (echo_append (path_line ompi_src ompi_version) bashrc) ;;
    os_system (echo_append (ld_library_path_line ompi_src ompi_version) bashrc) ;;
    ret tt
  else ret tt.

(** Lines 44-50 and 257-273, with the installer the name
    [run_pormaps_install] is bound to as a parameter. *)
Definition script_with
    (install : string -> string -> string -> string -> M unit)
    (g : Globals) : M unit :=
  cwd <- os_getcwd ;;
  os_makedirs "poremaps_Krach2025" ;;
  let poremaps_src := path_join cwd "poremaps_Krach2025" in
  os_makedirs "OpenMPI" ;;
  let ompi_src := path_join cwd "OpenMPI" in
  r <- run_ompi_install g (GET_OPENMPI g) ompi_src "5.0.9" ;;
  let '(ompi_compiler, ompi_exec, ompi_version) := r in
  print (ompi_compiler ++ " " ++ ompi_exec) ;;
  install ompi_compiler ompi_exec poremaps_src POREMAPS_GIT_URL ;;
  register_environment g ompi_exec ompi_src ompi_version.

Definition script (g : Globals) : M unit := script_with run_pormaps_install g.

(** *** Properties of computations *)

(** [except Exception] catches exactly these. *)
Definition is_Exception (e : exn) : bool :=
  match e with Exception _ _ => true | SystemExit _ => false end.

(** The computation never terminates the process on its own account. *)
Definition raises_only_Exception {A} (m : M A) : Prop :=
  forall w e w', m w = (Raised e, w') -> is_Exception e = true.

(** Two runs end in the same world and with the same exit status. *)
Definition same_world_and_status {A} (r1 r2 : outcome A * World) : Prop :=
  snd r1 = snd r2 /\ exit_status (fst r1) = exit_status (fst r2).

(** The computation leaves the trace it found in place and adds to it. *)
Definition extends_trace {A} (m : M A) : Prop :=
  forall w, exists l, events (snd (m w)) = (events w ++ l)%list.

(** The computation adds to the trace only entries that satisfy [P]. *)
Definition adds_only (P : event -> Prop) {A} (m : M A) : Prop :=
  forall w, exists l, events (snd (m w)) = (events w ++ l)%list /\ Forall P l.

(** Whenever the computation ends the process, the argument of [sys.exit]
    satisfies [Q]. *)
Definition exits_only (Q : string -> Prop) {A} (m : M A) : Prop :=
  forall w arg w', m w = (Raised (SystemExit arg), w') -> Q arg.

End Script.

(** ** A concrete machine

    A container with a working directory, a set of directories, a set of
    regular files with their execute bit, and a network that is up or
    down.  No build tool is installed in it: every shell command ends with
    the shell's "command not found" (wait status 127 * 256), and what a
    download returns is not a gzip archive. *)

Module Box.

Record box : Type := {
  box_cwd : string;
  box_dirs : list string;
  box_files : list (string * bool);
  box_online : bool
}.

Definition absolute (b : box) (path : string) : string := path_join (box_cwd b) path.

Definition is_dir (b : box) (path : string) : bool :=
  existsb (String.eqb (absolute b path)) (box_dirs b).

Definition chdir (dir : string) (b : box) : answer unit * box :=
  if is_dir b dir
  then (Done tt, {| box_cwd := absolute b dir; box_dirs := box_dirs b;
                    box_files := box_files b; box_online := box_online b |})
  else (Failed "FileNotFoundError"
          ("[Errno 2] No such file or directory: '" ++ dir ++ "'"), b).

Definition makedirs (dir : string) (b : box) : answer unit * box :=
  (Done tt, {| box_cwd := box_cwd b; box_dirs := absolute b dir :: box_dirs b;
               box_files := box_files b; box_online := box_online b |}).

Definition isfile (path : string) (b : box) : bool :=
  existsb (fun f => fst f =? absolute b path) (box_files b).

Definition access_x (path : string) (b : box) : bool :=
  existsb (fun f => (fst f =? absolute b path) && snd f) (box_files b).

Definition get (url : string) (b : box) : answer unit * box :=
  if box_online b then (Done tt, b)
  else (Failed "ConnectionError" "Network is unreachable", b).

Definition box_os : OS := {|
  state := box;
  response := unit;
  tarfile := unit;
  sys_chdir := chdir;
  sys_getcwd := fun b => (Done (box_cwd b), b);
  sys_makedirs := makedirs;
  sys_isfile := isfile;
  sys_access_x := access_x;
  sys_shell := fun _ b => (32512%Z, b);
  net_get := get;
  tar_open := fun _ b => (Failed "ReadError" "not a gzip file", b);
  tar_extractall := fun _ _ b => (Done tt, b)
|}.

(** A box with the system toolchain installed, in [/work], the two
    working directories of the script already there. *)
Definition provisioned (online : bool) : box := {|
  box_cwd := "/work";
  box_dirs := ["/work"; "/work/OpenMPI"; "/work/poremaps_Krach2025"];
  box_files := [("/usr/bin/mpiCC", true); ("/usr/bin/mpirun", true);
                ("/usr/bin/README", false)];
  box_online := online
|}.

Definition start (b : box) : World box_os := @Build_World box_os b [].

(** The script is started in a provisioned box, the network down or up. *)
Definition offline : World box_os := start (provisioned false).
Definition online : World box_os := start (provisioned true).

(** A repository URL with a NUL character in it. *)
Definition url_with_nul : string := "https://example.org/" ++ String nul "" ++ ".git".

End Box.

(** ** A machine whose downloads are archives

    The box again, with a mirror that serves gzip archives the extraction
    accepts.  Still no build tool is installed. *)

Module Mirror.

Definition mirror_os : OS := {|
  state := Box.box;
  response := unit;
  tarfile := unit;
  sys_chdir := Box.chdir;
  sys_getcwd := fun b => (Done (Box.box_cwd b), b);
  sys_makedirs := Box.makedirs;
  sys_isfile := Box.isfile;
  sys_access_x := Box.access_x;
  sys_shell := fun _ b => (32512%Z, b);
  net_get := Box.get;
  tar_open := fun _ b => (Done tt, b);
  tar_extractall := fun _ _ b => (Done tt, b)
|}.

(** The box after an earlier run of the script: the source tree of the
    toolchain and the clone of the repository are on disk. *)
Definition second_run : Box.box := {|
  Box.box_cwd := "/work";
  Box.box_dirs := ["/work"; "/work/OpenMPI"; "/work/OpenMPI/openmpi-5.0.9";
                   "/work/poremaps_Krach2025";
                   "/work/poremaps_Krach2025/poremaps/src"];
  Box.box_files := [("/usr/bin/mpiCC", true); ("/usr/bin/mpirun", true)];
  Box.box_online := true
|}.

(** A box without the system toolchain. *)
Definition bare : Box.box := {|
  Box.box_cwd := "/work";
  Box.box_dirs := ["/work"];
  Box.box_files := [];
  Box.box_online := false
|}.

Definition on_mirror (b : Box.box) : World mirror_os := @Build_World mirror_os b [].

End Mirror.

(** ** Further vocabulary *)

(** The address of a release archive: directory "v<major>.<minor>", file
    "openmpi-<version>.tar.gz" (the text of line 103 around its two index
    expressions). *)
Definition release_url (major minor version : string) : string :=
  "https://download.open-mpi.org/release/open-mpi/v" ++ major ++ "." ++ minor
  ++ "/openmpi-" ++ version ++ ".tar.gz".


(** No download, no archive, and of shell commands only the clone, the
    substitution of the system compiler, make and the activation append. *)
Definition system_tools_only (ev : event) : Prop :=
  match ev with
  | EvHttpGet _ | EvTarOpen | EvExtractAll _ => False
  | EvSystem command =>
      In command ["git clone " ++ POREMAPS_GIT_URL; sed_command "/usr/bin/mpiCC"; "make";
                  echo_append activate_line bashrc]
  | _ => True
  end.

(** One of the two messages of [_ompi_sanity], about some path. *)
Definition sanity_message (arg : string) : Prop :=
  exists path, arg = missing_message path \/ arg = not_executable_message path.

(** ** Sample runs *)

Example url_5_0_9 :
  ompi_url "5.0.9"
  = Returned "https://download.open-mpi.org/release/open-mpi/v5.0/openmpi-5.0.9.tar.gz".
Proof. reflexivity. Qed.

Example url_4_1_6 :
  ompi_url "4.1.6"
  = Returned "https://download.open-mpi.org/release/open-mpi/v4.1/openmpi-4.1.6.tar.gz".
Proof. reflexivity. Qed.

Example url_two_digit_minor :
  ompi_url "1.10.7"
  = Returned "https://download.open-mpi.org/release/open-mpi/v1.1/openmpi-1.10.7.tar.gz".
Proof. reflexivity. Qed.

Example join_relative : path_join "/work" "OpenMPI" = "/work/OpenMPI".
Proof. reflexivity. Qed.

Example join_root : path_join "/" "OpenMPI" = "/OpenMPI".
Proof. reflexivity. Qed.

Example join_absolute : path_join "/work" "/usr/bin/mpiCC" = "/usr/bin/mpiCC".
Proof. reflexivity. Qed.

Example sed_on_a_makefile :
  sed_clinker "/usr/bin/mpiCC" ["CC=gcc"; "CLINKER=mpicxx -O3"; "all: main"]
  = Some ["CC=gcc"; "CLINKER=/usr/bin/mpiCC"; "all: main"].
Proof. reflexivity. Qed.

(** ** Facts about strings *)

Lemma length_append (a b : string) :
  String.length (a ++ b) = String.length a + String.length b.
Proof. induction a as [|c a IH]; simpl; [reflexivity | now rewrite IH]. Qed.

Lemma contains_char_append (c : ascii) (a b : string) :
  contains_char c (a ++ b) = contains_char c a || contains_char c b.
Proof.
  induction a as [|x a IH]; simpl; [reflexivity|].
  now rewrite IH, orb_assoc.
Qed.

Lemma has_nul_append (a b : string) : has_nul (a ++ b) = has_nul a || has_nul b.
Proof. apply contains_char_append. Qed.

Lemma get_short (s : string) (i : nat) :
  String.length s <= i -> String.get i s = None.
Proof.
  revert i; induction s as [|c s IH]; intros i H; simpl in *; [reflexivity|].
  destruct i as [|i]; [lia|]. apply IH; lia.
Qed.

Lemma get_in_range (s : string) (i : nat) :
  i < String.length s -> exists c, String.get i s = Some c.
Proof.
  revert i; induction s as [|c s IH]; intros i H; simpl in *; [lia|].
  destruct i as [|i]; [now exists c|]. apply IH; lia.
Qed.


(** A path joined onto a relative name is at least as long as the name. *)
Lemma path_join_length (a b : string) :
  String.length b <= String.length (path_join a b).
Proof.
  unfold path_join.
  destruct (String.prefix "/" b); [lia|].
  destruct ((a =? "") || ends_with_slash a); rewrite ?length_append; simpl; lia.
Qed.

(** ** Facts about computations *)

Section Properties.

Variable os : OS.

Notation "x <- m ;; k" := (bind m (fun x => k))
  (at level 61, m at next level, right associativity).
Notation "m ;; k" := (bind m (fun _ => k))
  (at level 61, right associativity).

Lemma bind_returned {A B} (m : M os A) (k : A -> M os B) w a w' :
  m w = (Returned a, w') -> bind m k w = k a w'.
Proof. unfold bind; intros ->; reflexivity. Qed.

Lemma bind_raised {A B} (m : M os A) (k : A -> M os B) w e w' :
  m w = (Raised e, w') -> bind m k w = (Raised e, w').
Proof. unfold bind; intros ->; reflexivity. Qed.

Lemma try_except_caught {A} (body : M os A) handler w cls text w' :
  body w = (Raised (Exception cls text), w') ->
  try_except body handler w = handler text w'.
Proof. unfold try_except; intros ->; reflexivity. Qed.

Lemma try_except_returned {A} (body : M os A) handler w a w' :
  body w = (Returned a, w') -> try_except body handler w = (Returned a, w').
Proof. unfold try_except; intros ->; reflexivity. Qed.

(** *** Computations that raise nothing but [Exception]s *)

Lemma roe_ret {A} (a : A) : raises_only_Exception (@ret os A a).
Proof. intros w e w' H; discriminate. Qed.

Lemma roe_print text : raises_only_Exception (@print os text).
Proof. intros w e w' H; discriminate. Qed.

Lemma roe_call {A} ev (f : state os -> answer A * state os) :
  raises_only_Exception (call ev f).
Proof.
  intros w e w'; unfold call. destruct (f (machine w)) as [[a|cls text] s]; simpl; intros H.
  - discriminate.
  - now inversion H.
Qed.

Lemma roe_os_system command : raises_only_Exception (@os_system os command).
Proof.
  intros w e w'; unfold os_system. destruct (has_nul command).
  - unfold raise; intros H; now inversion H.
  - destruct (sys_shell os command (machine w)); discriminate.
Qed.

Lemma roe_bind {A B} (m : M os A) (k : A -> M os B) :
  raises_only_Exception m -> (forall a, raises_only_Exception (k a)) ->
  raises_only_Exception (bind m k).
Proof.
  intros Hm Hk w e w'; unfold bind.
  destruct (m w) as [[a|e1] w1] eqn:E.
  - apply Hk.
  - intros H; inversion H; subst. eapply Hm; eassumption.
Qed.

Lemma roe_if {A} (b : bool) (m1 m2 : M os A) :
  raises_only_Exception m1 -> raises_only_Exception m2 ->
  raises_only_Exception (if b then m1 else m2).
Proof. now destruct b. Qed.

Create HintDb roe.
#[local] Hint Resolve roe_ret roe_print roe_call roe_os_system roe_if : roe.
#[local] Hint Extern 2 (raises_only_Exception (bind _ _)) =>
  apply roe_bind; [| intro] : roe.

Lemma roe_acquisition_region g v url :
  raises_only_Exception (@acquisition_region os g v url).
Proof.
  unfold acquisition_region, requests_get, tarfile_open, extractall,
    os_getcwd, os_chdir, os_makedirs.
  auto 30 with roe.
Qed.

(** *** Computations only ever extend the trace *)

Lemma ext_ret {A} (a : A) : extends_trace (@ret os A a).
Proof. intros w; exists []; simpl; now rewrite app_nil_r. Qed.

Lemma ext_raise {A} e : extends_trace (@raise os A e).
Proof. intros w; exists []; simpl; now rewrite app_nil_r. Qed.

Lemma ext_print text : extends_trace (@print os text).
Proof. intros w; eexists; reflexivity. Qed.

Lemma ext_call {A} ev (f : state os -> answer A * state os) : extends_trace (call ev f).
Proof. intros w; unfold call. destruct (f (machine w)); eexists; reflexivity. Qed.

Lemma ext_os_system command : extends_trace (@os_system os command).
Proof.
  intros w; unfold os_system. destruct (has_nul command).
  - apply ext_raise.
  - destruct (sys_shell os command (machine w)); eexists; reflexivity.
Qed.

Lemma ext_bind {A B} (m : M os A) (k : A -> M os B) :
  extends_trace m -> (forall a, extends_trace (k a)) -> extends_trace (bind m k).
Proof.
  intros Hm Hk w; unfold bind. destruct (Hm w) as [l Hl].
  destruct (m w) as [[a|e] w1]; simpl in Hl.
  - destruct (Hk a w1) as [l' Hl']. exists (l ++ l')%list. now rewrite Hl', Hl, app_assoc.
  - exists l; exact Hl.
Qed.

Lemma ext_try_except {A} (body : M os A) handler :
  extends_trace body -> (forall text, extends_trace (handler text)) ->
  extends_trace (try_except body handler).
Proof.
  intros Hb Hh w; unfold try_except. destruct (Hb w) as [l Hl].
  destruct (body w) as [[a|[cls text|arg]] w1]; simpl in Hl; try (exists l; exact Hl).
  destruct (Hh text w1) as [l' Hl']. exists (l ++ l')%list. now rewrite Hl', Hl, app_assoc.
Qed.

Lemma ext_if {A} (b : bool) (m1 m2 : M os A) :
  extends_trace m1 -> extends_trace m2 -> extends_trace (if b then m1 else m2).
Proof. now destruct b. Qed.

Create HintDb trace.
#[local] Hint Resolve ext_ret ext_raise ext_print ext_call ext_os_system ext_if : trace.
#[local] Hint Extern 2 (extends_trace (bind _ _)) => apply ext_bind; [| intro] : trace.
#[local] Hint Extern 2 (extends_trace (try_except _ _)) =>
  apply ext_try_except; [| intro] : trace.


(** *** The download URL *)

Lemma version_XYZ_length (v : string) : version_XYZ v -> 5 <= String.length v.
Proof.
  intros (X & Y & Z & HX & HY & HZ & ->).
  rewrite !length_append; simpl.
  destruct X; [congruence|]. destruct Y; [congruence|]. destruct Z; [congruence|].
  simpl; lia.
Qed.

Lemma ompi_url_of_chars (v : string) (c0 c2 : ascii) :
  String.get 0 v = Some c0 -> String.get 2 v = Some c2 ->
  ompi_url v = Returned ("https://download.open-mpi.org/release/open-mpi/v"
                         ++ String c0 "" ++ "." ++ String c2 "" ++ "/openmpi-" ++ v
                         ++ ".tar.gz").
Proof. unfold ompi_url, py_index; intros -> ->; reflexivity. Qed.

Lemma ompi_url_short (v : string) :
  String.length v < 3 ->
  ompi_url v = Raised (Exception "IndexError" "string index out of range").
Proof.
  intros H. unfold ompi_url, py_index.
  destruct (String.get 0 v); [|reflexivity].
  rewrite (@get_short v 2) by lia. reflexivity.
Qed.

Lemma print_bind {B} text (k : unit -> M os B) (w : World os) :
  bind (print text) k w = k tt (log (EvPrint text) w (machine w)).
Proof. reflexivity. Qed.

Lemma call_trace {A} ev (f : state os -> answer A * state os) (w : World os) :
  events (snd (call ev f w)) = (events w ++ [ev])%list.
Proof. unfold call. destruct (f (machine w)); reflexivity. Qed.

Lemma bind_trace_prefix {A B} (m : M os A) (k : A -> M os B) (w : World os) l :
  events (snd (m w)) = (events w ++ l)%list ->
  (forall a, extends_trace (k a)) ->
  exists rest, events (snd (bind m k w)) = (events w ++ l ++ rest)%list.
Proof.
  intros Hm Hk. unfold bind. destruct (m w) as [[a|e] w1]; simpl in Hm.
  - destruct (Hk a w1) as [l' Hl']. exists l'. now rewrite Hl', Hm, app_assoc.
  - exists []. now rewrite app_nil_r.
Qed.

(** With one-character major and minor components the segment is the
    release branch, "v<major>.<minor>". *)
Lemma ompi_url_single_character_components (major minor : ascii) (patch : string) :
  ompi_url (String major "" ++ "." ++ String minor "" ++ "." ++ patch)
  = Returned ("https://download.open-mpi.org/release/open-mpi/v"
              ++ String major "" ++ "." ++ String minor "" ++ "/openmpi-"
              ++ (String major "" ++ "." ++ String minor "" ++ "." ++ patch) ++ ".tar.gz").
Proof. reflexivity. Qed.

(** The first two steps of the guarded region: the announcement, then the
    download request for the URL it was given. *)
Lemma acquisition_region_requests g v url (w : World os) :
  exists rest,
    events (snd (acquisition_region g v url w))
    = (events w ++ EvPrint ("### DOWNLOADING OpenMPI " ++ v ++ " ###")
                :: EvHttpGet url :: rest)%list.
Proof.
  unfold acquisition_region. rewrite print_bind.
  match goal with
  | |- context [bind (requests_get url) ?k _] =>
      destruct (@bind_trace_prefix _ _ (requests_get url) k
                  (log (EvPrint ("### DOWNLOADING OpenMPI " ++ v ++ " ###")) w (machine w))
                  [EvHttpGet url]) as [rest Hrest]
  end.
  - apply call_trace.
  - intro r. unfold tarfile_open, extractall, os_getcwd, os_chdir, os_makedirs.
    auto 40 with trace.
  - exists rest. rewrite Hrest. simpl. rewrite <- app_assoc. reflexivity.
Qed.

Lemma ext_acquisition_fallback text : extends_trace (@acquisition_fallback os text).
Proof. unfold acquisition_fallback; auto with trace. Qed.

(** C6. For a version string of the form X.Y.Z, the download URL is the
    release address whose path segment is "v", the character at index 0,
    a dot, and the character at index 2 of the version string, followed by
    "/openmpi-<version>.tar.gz"; and [run_ompi_install], once in its source
    directory, sends its download request to exactly that URL. *)
Theorem ompi_url_from_first_and_third_character
    (g : Globals) (src v : string) (w w1 : World os) :
  version_XYZ v ->
  os_chdir src w = (Returned tt, w1) ->
  exists c0 c2 rest,
    String.get 0 v = Some c0 /\ String.get 2 v = Some c2 /\
    ompi_url v = Returned ("https://download.open-mpi.org/release/open-mpi/v"
                           ++ String c0 "" ++ "." ++ String c2 "" ++ "/openmpi-" ++ v
                           ++ ".tar.gz") /\
    events (snd (run_ompi_install g true src v w))
    = (events w1 ++ EvPrint ("### DOWNLOADING OpenMPI " ++ v ++ " ###")
         :: EvHttpGet ("https://download.open-mpi.org/release/open-mpi/v"
                       ++ String c0 "" ++ "." ++ String c2 "" ++ "/openmpi-" ++ v
                       ++ ".tar.gz") :: rest)%list.
Proof.
  intros HV Hcd. pose proof (version_XYZ_length HV) as Hlen.
  destruct (@get_in_range v 0) as [c0 H0]; [lia|].
  destruct (@get_in_range v 2) as [c2 H2]; [lia|].
  pose proof (ompi_url_of_chars v H0 H2) as Hurl.
  set (url := ("https://download.open-mpi.org/release/open-mpi/v"
               ++ String c0 "" ++ "." ++ String c2 "" ++ "/openmpi-" ++ v ++ ".tar.gz")) in *.
  destruct (acquisition_region_requests g v url w1) as [rest Hrest].
  unfold run_ompi_install.
  unfold bind at 1. unfold bind at 1. rewrite Hcd.
  unfold bind at 1. unfold lift. rewrite Hurl.
  unfold try_except.
  destruct (acquisition_region g v url w1) as [[paths|[cls text|arg]] w2] eqn:E;
    simpl in Hrest.
  - exists c0, c2, rest. simpl. auto.
  - destruct (ext_acquisition_fallback text w2) as [l Hl].
    destruct (acquisition_fallback text w2) as [[p|e] w3] eqn:E3; simpl in Hl |- *;
      exists c0, c2, (rest ++ l)%list; repeat split; auto;
      rewrite Hl, Hrest, <- app_assoc; reflexivity.
  - exists c0, c2, rest. simpl. auto.
Qed.

(** *** Falling back to the system toolchain *)

Lemma source_build_path_longer (cwd v tool : string) :
  8 + String.length tool <= String.length (path_join cwd ("openmpi-" ++ v ++ tool)).
Proof.
  etransitivity; [|apply path_join_length].
  rewrite !length_append; simpl; lia.
Qed.

Lemma source_build_mpiCC_not_system (cwd v : string) :
  path_join cwd ("openmpi-" ++ v ++ "/build/bin/mpiCC") <> "/usr/bin/mpiCC".
Proof.
  intros H. pose proof (source_build_path_longer cwd v "/build/bin/mpiCC") as L.
  rewrite H in L. simpl in L. lia.
Qed.

Lemma source_build_mpirun_not_system (cwd v : string) :
  path_join cwd ("openmpi-" ++ v ++ "/build/bin/mpirun") <> "/usr/bin/mpirun".
Proof.
  intros H. pose proof (source_build_path_longer cwd v "/build/bin/mpirun") as L.
  rewrite H in L. simpl in L. lia.
Qed.

(** C1. Whenever the guarded region of [run_ompi_install] (download,
    extraction, path computation, directory changes, build commands)
    raises, the function raises nothing: it prints the diagnostic and
    returns "/usr/bin/mpiCC" and "/usr/bin/mpirun" with the requested
    version string; these are never the paths the region computes under the
    source directory. *)
Theorem run_ompi_install_falls_back
    (g : Globals) (src v url : string) (w w1 w2 : World os) (e : exn) :
  os_chdir src w = (Returned tt, w1) ->
  ompi_url v = Returned url ->
  acquisition_region g v url w1 = (Raised e, w2) ->
  (exists cls text,
     e = Exception cls text
     /\ run_ompi_install g true src v w
        = (Returned ("/usr/bin/mpiCC", "/usr/bin/mpirun", v),
           log (EvPrint ("### ERROR: " ++ text ++ nl ++ fallback_notice)) w2 (machine w2)))
  /\ (forall cwd, path_join cwd ("openmpi-" ++ v ++ "/build/bin/mpiCC") <> "/usr/bin/mpiCC")
  /\ (forall cwd, path_join cwd ("openmpi-" ++ v ++ "/build/bin/mpirun") <> "/usr/bin/mpirun").
Proof.
  intros Hcd Hurl Hreg.
  split; [| split; intro cwd;
            [apply source_build_mpiCC_not_system | apply source_build_mpirun_not_system]].
  pose proof (@roe_acquisition_region g v url w1 e w2 Hreg) as Hexc.
  destruct e as [cls text|arg]; [|discriminate].
  exists cls, text. split; [reflexivity|]. unfold run_ompi_install.
  unfold bind at 1. unfold bind at 1. rewrite Hcd.
  unfold bind at 1. unfold lift. rewrite Hurl.
  rewrite (try_except_caught _ _ _ Hreg). reflexivity.
Qed.

(** The failure of any one step is a failure of the region: here, of the
    download. *)
Lemma acquisition_region_download_fails g v url (w : World os) cls text s :
  net_get os url (machine w) = (Failed cls text, s) ->
  exists w', acquisition_region g v url w = (Raised (Exception cls text), w').
Proof.
  intros H. unfold acquisition_region. rewrite print_bind.
  eexists. apply bind_raised. unfold requests_get, call. simpl. rewrite H. reflexivity.
Qed.

(** C3. With [_GET_OMPI] false, [run_ompi_install] returns
    "/usr/bin/mpiCC", "/usr/bin/mpirun" and the requested version string
    as it was given; the machine (file system, working directory, network)
    is left as it was, and the only entry added to the trace is the notice
    printed on standard output: no system call is made. *)
Theorem run_ompi_install_system_default
    (g : Globals) (src v : string) (w : World os) :
  fst (run_ompi_install g false src v w)
  = Returned ("/usr/bin/mpiCC", "/usr/bin/mpirun", v)
  /\ machine (snd (run_ompi_install g false src v w)) = machine w
  /\ events (snd (run_ompi_install g false src v w))
     = (events w ++ [EvPrint fallback_notice])%list.
Proof. repeat split. Qed.

(** C9. With [_GET_OMPI] true and a version string of fewer than three
    characters, [run_ompi_install] never returns, so never falls back to
    the system paths: the URL is built before the guarded region begins,
    and once the function is in its source directory the [IndexError]
    raised while building it leaves the function.  Nothing is downloaded:
    the change of directory is the only call made. *)
Theorem run_ompi_install_short_version_raises
    (g : Globals) (src v : string) (w : World os) :
  String.length v < 3 ->
  (forall w1, os_chdir src w = (Returned tt, w1) ->
              run_ompi_install g true src v w
              = (Raised (Exception "IndexError" "string index out of range"), w1))
  /\ (forall r w', run_ompi_install g true src v w <> (Returned r, w'))
  /\ events (snd (run_ompi_install g true src v w)) = (events w ++ [EvChdir src])%list.
Proof.
  intros Hlen.
  assert (Hrun : run_ompi_install g true src v w
                 = match os_chdir src w with
                   | (Returned _, w1) =>
                       (Raised (Exception "IndexError" "string index out of range"), w1)
                   | (Raised e, w1) => (Raised e, w1)
                   end).
  { unfold run_ompi_install.
    unfold bind at 1. unfold bind at 1.
    destruct (os_chdir src w) as [[[]|e] w1]; [|reflexivity].
    unfold bind at 1. unfold lift. rewrite (ompi_url_short _ Hlen). reflexivity. }
  rewrite Hrun.
  assert (Htr : events (snd (os_chdir src w)) = (events w ++ [EvChdir src])%list)
    by apply call_trace.
  destruct (os_chdir src w) as [[[]|e] w1]; simpl in Htr; repeat split;
    try (intros; discriminate); try exact Htr.
  intros w1' [= <-]. reflexivity.
Qed.

(** *** The sanity check *)

(** The function, case by case. *)
Lemma ompi_sanity_cases (path : string) (w : World os) :
  _ompi_sanity path w
  = let w1 := log (EvIsfile path) w (machine w) in
    let w2 := log (EvAccess path) w1 (machine w) in
    if negb (sys_isfile os path (machine w))
    then (Raised (SystemExit (missing_message path)), w1)
    else if negb (sys_access_x os path (machine w))
         then (Raised (SystemExit (not_executable_message path)), w2)
         else (Returned tt, w2).
Proof.
  unfold _ompi_sanity, bind, try_except, os_path_isfile, os_access_X_OK, sys_exit, raise.
  destruct (sys_isfile os path (machine w)); [|reflexivity].
  cbn. destruct (sys_access_x os path (machine w)); reflexivity.
Qed.

(** C2. [_ompi_sanity] ends the process, with a non-zero exit status and
    a message on standard error that names the path, when the path is not
    an existing file; it ends the process likewise, with its own message,
    when the file exists and is not executable; and it returns normally
    exactly when the file exists and is executable. *)
Theorem ompi_sanity_outcomes (path : string) (w : World os) :
  (sys_isfile os path (machine w) = false ->
     fst (_ompi_sanity path w) = Raised (SystemExit (missing_message path))
     /\ exit_status (fst (_ompi_sanity path w)) <> 0%Z
     /\ stderr_message (fst (_ompi_sanity path w)) = Some (missing_message path))
  /\ (sys_isfile os path (machine w) = true ->
      sys_access_x os path (machine w) = false ->
      fst (_ompi_sanity path w) = Raised (SystemExit (not_executable_message path))
      /\ exit_status (fst (_ompi_sanity path w)) <> 0%Z
      /\ stderr_message (fst (_ompi_sanity path w))
         = Some (not_executable_message path))
  /\ (fst (_ompi_sanity path w) = Returned tt
      <-> sys_isfile os path (machine w) = true
          /\ sys_access_x os path (machine w) = true).
Proof.
  rewrite ompi_sanity_cases. cbv zeta.
  destruct (sys_isfile os path (machine w)), (sys_access_x os path (machine w)); cbn;
    repeat split; intros; try discriminate; try tauto;
    match goal with H : _ /\ _ |- _ => destruct H; discriminate end.
Qed.

(** *** Shell commands *)

Lemma os_system_runs (command : string) (w : World os) :
  has_nul command = false ->
  os_system command w
  = (Returned (fst (sys_shell os command (machine w))),
     log (EvSystem command) w (snd (sys_shell os command (machine w)))).
Proof.
  intros H. unfold os_system. rewrite H.
  destruct (sys_shell os command (machine w)); reflexivity.
Qed.

Lemma os_system_bind {B} (command : string) (k : Z -> M os B) (w : World os) :
  has_nul command = false ->
  bind (os_system command) k w
  = k (fst (sys_shell os command (machine w)))
      (log (EvSystem command) w (snd (sys_shell os command (machine w)))).
Proof. intros H. unfold bind. now rewrite os_system_runs. Qed.

Lemma os_system_refused {B} (command : string) (k : Z -> M os B) (w : World os) :
  has_nul command = true ->
  bind (os_system command) k w = (Raised (Exception "ValueError" "embedded null byte"), w).
Proof. intros H. unfold bind, os_system. now rewrite H. Qed.




(** *** Registering the environment *)


(** *** Installing poremaps *)

(** The clone step of either definition: the handler is entered only when
    [os.system] itself refuses the command. *)
Lemma clone_step {B} (url : string) (message : string -> string)
    (k : unit -> M os B) (w : World os) :
  bind (try_except (os_system ("git clone " ++ url) ;; ret tt)
                   (fun e => sys_exit (message e))) k w
  = if has_nul url
    then (Raised (SystemExit (message "embedded null byte")), w)
    else k tt (log (EvSystem ("git clone " ++ url)) w
                 (snd (sys_shell os ("git clone " ++ url) (machine w)))).
Proof.
  assert (N : has_nul ("git clone " ++ url) = has_nul url) by apply has_nul_append.
  unfold bind at 1, try_except.
  destruct (has_nul url) eqn:H.
  - rewrite os_system_refused by now rewrite N. reflexivity.
  - rewrite os_system_bind by now rewrite N. reflexivity.
Qed.

(** The statements after the clone step (lines 247-254). *)
Lemma roe_after_clone (c : string) :
  raises_only_Exception
    (@os_chdir os "poremaps/src" ;; os_system (sed_command c) ;; os_system "make" ;; ret tt).
Proof. unfold os_chdir. auto 10 with roe. Qed.

(** C7. When the clone command returns a non-zero status, [os.system]
    hands that status back instead of raising, so the handler that would
    end the process is not entered: [run_pormaps_install] goes on with the
    change into poremaps/src, the sed command and make, and whatever
    happens there, the process is not ended by [sys.exit]. *)
Theorem clone_failure_is_not_detected
    (c e src url : string) (w wa wb w1 w2 : World os) (rc : Z) :
  _ompi_sanity c w = (Returned tt, wa) ->
  _ompi_sanity e wa = (Returned tt, wb) ->
  os_chdir src wb = (Returned tt, w1) ->
  os_system ("git clone " ++ url) w1 = (Returned rc, w2) ->
  rc <> 0%Z ->
  run_pormaps_install c e src url w
  = (os_chdir "poremaps/src" ;; os_system (sed_command c) ;; os_system "make" ;; ret tt) w2
  /\ (forall arg, fst (run_pormaps_install c e src url w) <> Raised (SystemExit arg))
  /\ (exists rest,
        events (snd (run_pormaps_install c e src url w))
        = (events w2 ++ EvChdir "poremaps/src" :: rest)%list).
Proof.
  intros Hc He Hcd Hclone Hrc.
  assert (Hrun : run_pormaps_install c e src url w
                 = (os_chdir "poremaps/src" ;; os_system (sed_command c) ;;
                    os_system "make" ;; ret tt) w2).
  { unfold run_pormaps_install.
    rewrite (bind_returned _ _ _ Hc), (bind_returned _ _ _ He), (bind_returned _ _ _ Hcd).
    assert (Htry : forall handler,
               try_except (os_system ("git clone " ++ url) ;; ret tt) handler w1
               = (Returned tt, w2)).
    { intro handler. apply try_except_returned.
      now rewrite (bind_returned _ _ _ Hclone). }
    now rewrite (bind_returned _ _ _ (Htry _)). }
  rewrite Hrun. split; [reflexivity | split].
  - intros arg H.
    destruct ((os_chdir "poremaps/src" ;; os_system (sed_command c) ;;
               os_system "make" ;; ret tt) w2) as [o w3] eqn:E.
    simpl in H; subst o.
    pose proof (@roe_after_clone c w2 _ _ E). discriminate.
  - destruct (@bind_trace_prefix _ _ (os_chdir "poremaps/src")
                (fun _ => os_system (sed_command c) ;; os_system "make" ;; ret tt)
                w2 [EvChdir "poremaps/src"]) as [rest Hrest].
    + apply call_trace.
    + intro. auto with trace.
    + exists rest. exact Hrest.
Qed.

(** C8. Two runs of the script whose global flags differ at most in
    [POREMAPSTEST] have the same outcome, the same trace and the same
    final machine. *)
Theorem script_ignores_POREMAPSTEST (g1 g2 : Globals) (w : World os) :
  GET_OPENMPI g1 = GET_OPENMPI g2 ->
  VERBOSE g1 = VERBOSE g2 ->
  script g1 w = script g2 w.
Proof.
  intros HG HV.
  unfold script, script_with, run_ompi_install, acquisition_region, register_environment.
  rewrite HG, HV. reflexivity.
Qed.

(** *** The two definitions of [run_pormaps_install] *)

Lemma bind_ext {A B} (m : M os A) (k1 k2 : A -> M os B) (w : World os) :
  (forall a w', k1 a w' = k2 a w') -> bind m k1 w = bind m k2 w.
Proof. intros H. unfold bind. destruct (m w) as [[a|e] w']; auto. Qed.

Lemma bind_first {A B} (m1 m2 : M os A) (k : A -> M os B) (w : World os) :
  m1 w = m2 w -> bind m1 k w = bind m2 k w.
Proof. unfold bind; intros ->; reflexivity. Qed.

Lemma bind_same_world_and_status {A B} (m : M os A) (k1 k2 : A -> M os B) (w : World os) :
  (forall a w', same_world_and_status (k1 a w') (k2 a w')) ->
  same_world_and_status (bind m k1 w) (bind m k2 w).
Proof.
  intros H. unfold bind. destruct (m w) as [[a|e] w']; [apply H | split; reflexivity].
Qed.

Lemma install_definitions_agree_without_nul (c e src url : string) (w : World os) :
  has_nul url = false ->
  run_pormaps_install_first c e src url w = run_pormaps_install c e src url w.
Proof.
  intros H. unfold run_pormaps_install_first, run_pormaps_install.
  do 3 (apply bind_ext; intros ? ?).
  rewrite !clone_step, H. reflexivity.
Qed.

Lemma install_definitions_same_world_and_status (c e src url : string) (w : World os) :
  same_world_and_status (run_pormaps_install_first c e src url w)
                        (run_pormaps_install c e src url w).
Proof.
  unfold run_pormaps_install_first, run_pormaps_install.
  do 3 (apply bind_same_world_and_status; intros ? ?).
  rewrite !clone_step. destruct (has_nul url); split; reflexivity.
Qed.

Lemma script_with_either_definition (g : Globals) (w : World os) :
  script_with (@run_pormaps_install_first os) g w = script_with (@run_pormaps_install os) g w.
Proof.
  unfold script_with.
  do 4 (apply bind_ext; intros ? ?).
  destruct a2 as [[ompi_compiler ompi_exec] ompi_version].
  apply bind_ext; intros ? ?.
  apply bind_first. now apply install_definitions_agree_without_nul.
Qed.

(** C10. The two definitions of [run_pormaps_install] perform the same
    steps and are equal on every input whose repository URL holds no NUL
    character, that is, whenever [os.system] accepts the clone command;
    on every input they leave the same machine and trace and give the
    same exit status (only the wording of the clone-failure message
    differs); and the script behaves the same whichever of the two its
    call is bound to. *)
Theorem install_definitions_agree
    (c e src url : string) (w : World os) (g : Globals) (w0 : World os) :
  (has_nul url = false ->
   run_pormaps_install_first c e src url w = run_pormaps_install c e src url w)
  /\ snd (run_pormaps_install_first c e src url w) = snd (run_pormaps_install c e src url w)
  /\ exit_status (fst (run_pormaps_install_first c e src url w))
     = exit_status (fst (run_pormaps_install c e src url w))
  /\ script_with (@run_pormaps_install_first os) g w0
     = script_with (@run_pormaps_install os) g w0.
Proof.
  split; [apply install_definitions_agree_without_nul|].
  pose proof (install_definitions_same_world_and_status c e src url w) as [Hw Hs].
  split; [exact Hw | split; [exact Hs | apply script_with_either_definition]].
Qed.

End Properties.

(** ** The makefile substitution *)









(** ** Further properties of the script *)

Section Further.

Variable os : OS.

Notation "x <- m ;; k" := (bind m (fun x => k))
  (at level 61, m at next level, right associativity).
Notation "m ;; k" := (bind m (fun _ => k))
  (at level 61, right associativity).

Create HintDb escapes.
#[local] Hint Resolve roe_ret roe_print roe_call roe_os_system roe_if : escapes.
#[local] Hint Extern 2 (raises_only_Exception (bind _ _)) =>
  apply roe_bind; [| intro] : escapes.

Lemma bind_returned_inv {A B} (m : M os A) (k : A -> M os B) w b w' :
  bind m k w = (Returned b, w') ->
  exists a w1, m w = (Returned a, w1) /\ k a w1 = (Returned b, w').
Proof.
  unfold bind. destruct (m w) as [[a|e] w1]; [|discriminate].
  intros H. now exists a, w1.
Qed.

Lemma roe_lift_ompi_url (v : string) : raises_only_Exception (@lift os _ (ompi_url v)).
Proof.
  intros w e w'. unfold lift, ompi_url, py_index.
  destruct (String.get 0 v); [destruct (String.get 2 v)|]; intros H; inversion H; reflexivity.
Qed.

Lemma roe_try_except {A} (body : M os A) handler :
  raises_only_Exception body -> (forall text, raises_only_Exception (handler text)) ->
  raises_only_Exception (try_except body handler).
Proof.
  intros Hb Hh w e w'. unfold try_except.
  destruct (body w) as [[a|[cls text|arg]] w1] eqn:E.
  - discriminate.
  - apply Hh.
  - intros H; inversion H; subst. exact (Hb _ _ _ E).
Qed.

Lemma roe_acquisition_fallback text : raises_only_Exception (@acquisition_fallback os text).
Proof. unfold acquisition_fallback. auto with escapes. Qed.

Lemma roe_run_ompi_install g b src v :
  raises_only_Exception (@run_ompi_install os g b src v).
Proof.
  unfold run_ompi_install. apply roe_bind; [|intro; apply roe_ret].
  destruct b; [|auto with escapes].
  unfold os_chdir. apply roe_bind; [apply roe_call | intros _].
  apply roe_bind; [apply roe_lift_ompi_url | intros url].
  apply roe_try_except; [apply roe_acquisition_region | apply roe_acquisition_fallback].
Qed.

(** The guarded region with its handler always returns a pair of paths. *)
Lemma guarded_region_returns g v url (w : World os) :
  exists p w',
    try_except (acquisition_region g v url) (@acquisition_fallback os) w = (Returned p, w').
Proof.
  unfold try_except. destruct (acquisition_region g v url w) as [[p|e] w1] eqn:E.
  - now exists p, w1.
  - pose proof (@roe_acquisition_region os g v url w e w1 E) as He.
    destruct e as [cls text|arg]; [|discriminate].
    eexists; eexists; reflexivity.
Qed.

Lemma ompi_url_long (v : string) :
  3 <= String.length v -> exists url, ompi_url v = Returned url.
Proof.
  intros H.
  destruct (@get_in_range v 0) as [c0 H0]; [lia|].
  destruct (@get_in_range v 2) as [c2 H2]; [lia|].
  eexists. apply (ompi_url_of_chars v H0 H2).
Qed.

(** X1. A source build is requested: [run_ompi_install] returns normally
    exactly when the change into the source directory succeeds and the
    version string has at least three characters; and it never ends the
    process. *)
Theorem run_ompi_install_returns_iff (g : Globals) (src v : string) (w : World os) :
  ((exists r w', run_ompi_install g true src v w = (Returned r, w'))
   <-> (exists w1, os_chdir src w = (Returned tt, w1)) /\ 3 <= String.length v)
  /\ (forall arg w', run_ompi_install g true src v w <> (Raised (SystemExit arg), w')).
Proof.
  split.
  - unfold run_ompi_install. split.
    + intros (r & w' & H).
      apply bind_returned_inv in H. destruct H as (p & w2 & H & _).
      apply bind_returned_inv in H. destruct H as ([] & w1 & Hcd & H).
      apply bind_returned_inv in H. destruct H as (url & w1' & Hurl & _).
      split; [now exists w1|].
      destruct (Nat.lt_ge_cases (String.length v) 3) as [Hlt|Hge]; [|exact Hge].
      unfold lift in Hurl. rewrite (ompi_url_short _ Hlt) in Hurl. discriminate.
    + intros [[w1 Hcd] Hlen].
      destruct (ompi_url_long _ Hlen) as [url Hurl].
      destruct (guarded_region_returns g v url w1) as (p & w2 & Hp).
      exists (fst p, snd p, v), w2.
      unfold bind at 1. unfold bind at 1. rewrite Hcd.
      unfold bind at 1. unfold lift. rewrite Hurl, Hp. reflexivity.
  - intros arg w' H. pose proof (@roe_run_ompi_install g true src v w _ _ H). discriminate.
Qed.

(** The paths the guarded region returns are the two tool names under
    "openmpi-<version>/build/bin" in the working directory reported to it. *)
Lemma acquisition_region_result g v url (w w' : World os) c e :
  acquisition_region g v url w = (Returned (c, e), w') ->
  exists cwd1 cwd2,
    c = path_join cwd1 ("openmpi-" ++ v ++ "/build/bin/mpiCC")
    /\ e = path_join cwd2 ("openmpi-" ++ v ++ "/build/bin/mpirun").
Proof.
  unfold acquisition_region. intros H.
  repeat match type of H with
         | bind _ _ _ = _ =>
             apply bind_returned_inv in H; destruct H as (? & ? & _ & H)
         end.
  unfold ret in H. injection H as <- <- _. eauto.
Qed.

(** X2. What [run_ompi_install] returns: always the version string it
    was given, with either the two system paths or, only when a source
    build was requested, the two tool paths under
    "openmpi-<version>/build/bin" of the working directory; the two cases
    exclude each other. *)
Theorem run_ompi_install_result
    (g : Globals) (b : bool) (src v : string) (w w' : World os) (c e v' : string) :
  run_ompi_install g b src v w = (Returned (c, e, v'), w') ->
  v' = v
  /\ ((c = "/usr/bin/mpiCC" /\ e = "/usr/bin/mpirun")
      \/ (b = true /\ c <> "/usr/bin/mpiCC" /\ e <> "/usr/bin/mpirun"
          /\ exists cwd1 cwd2,
               c = path_join cwd1 ("openmpi-" ++ v ++ "/build/bin/mpiCC")
               /\ e = path_join cwd2 ("openmpi-" ++ v ++ "/build/bin/mpirun"))).
Proof.
  unfold run_ompi_install. intros H.
  apply bind_returned_inv in H. destruct H as ([c0 e0] & w2 & H & Hret).
  unfold ret in Hret. simpl in Hret. injection Hret as <- <- <- _.
  split; [reflexivity|].
  destruct b.
  - apply bind_returned_inv in H. destruct H as ([] & w1 & _ & H).
    apply bind_returned_inv in H. destruct H as (url & w1' & _ & H).
    unfold try_except in H.
    destruct (acquisition_region g v url w1') as [[p|[cls text|arg]] w3] eqn:E.
    + injection H as -> _.
      destruct (acquisition_region_result _ _ _ _ E) as (cwd1 & cwd2 & -> & ->).
      right. split; [reflexivity|].
      split; [apply source_build_mpiCC_not_system|].
      split; [apply source_build_mpirun_not_system|]. eauto.
    + unfold acquisition_fallback in H.
      apply bind_returned_inv in H. destruct H as (? & ? & _ & H).
      unfold ret in H. injection H as <- <- _. now left.
    + discriminate.
  - apply bind_returned_inv in H. destruct H as (? & ? & _ & H).
    unfold ret in H. injection H as <- <- _. now left.
Qed.

(** *** What [run_pormaps_install] does before and after the clone *)



Lemma has_nul_sed_command (c : string) : has_nul (sed_command c) = has_nul c.
Proof.
  unfold sed_command. rewrite !has_nul_append.
  change (has_nul "sed -i 's|CLINKER=.*|CLINKER=") with false.
  change (has_nul "|' makefile") with false.
  now rewrite orb_false_r.
Qed.

Lemma run_pormaps_install_completes
    (c e src url : string) (w wa wb w1 : World os) (s3 : state os) :
  _ompi_sanity c w = (Returned tt, wa) ->
  _ompi_sanity e wa = (Returned tt, wb) ->
  os_chdir src wb = (Returned tt, w1) ->
  has_nul url = false ->
  has_nul c = false ->
  sys_chdir os "poremaps/src" (snd (sys_shell os ("git clone " ++ url) (machine w1)))
  = (Done tt, s3) ->
  exists w',
    run_pormaps_install c e src url w = (Returned tt, w')
    /\ events w'
       = (events w1 ++ [EvSystem ("git clone " ++ url); EvChdir "poremaps/src";
                        EvSystem (sed_command c); EvSystem "make"])%list.
Proof.
  intros Hc He Hcd Hurl Hcomp Hsrc. eexists. split.
  - unfold run_pormaps_install.
    rewrite (bind_returned _ _ _ Hc), (bind_returned _ _ _ He), (bind_returned _ _ _ Hcd).
    rewrite clone_step, Hurl.
    unfold bind at 1. unfold os_chdir, call. cbn [machine log]. rewrite Hsrc.
    cbn [outcome_of_answer].
    rewrite os_system_bind by now rewrite has_nul_sed_command.
    rewrite os_system_bind by reflexivity.
    reflexivity.
  - cbn. rewrite <- !app_assoc. reflexivity.
Qed.

(** X4. Once both checks pass and the two directory changes succeed,
    [run_pormaps_install] hands the clone, the substitution and make to the
    shell, in this order, and returns normally: none of the three wait
    statuses is looked at. *)
Theorem run_pormaps_install_ignores_statuses
    (c e src url : string) (w wa wb w1 : World os) (s3 : state os) :
  _ompi_sanity c w = (Returned tt, wa) ->
  _ompi_sanity e wa = (Returned tt, wb) ->
  os_chdir src wb = (Returned tt, w1) ->
  has_nul url = false ->
  has_nul c = false ->
  sys_chdir os "poremaps/src" (snd (sys_shell os ("git clone " ++ url) (machine w1)))
  = (Done tt, s3) ->
  fst (run_pormaps_install c e src url w) = Returned tt
  /\ events (snd (run_pormaps_install c e src url w))
     = (events w1 ++ [EvSystem ("git clone " ++ url); EvChdir "poremaps/src";
                      EvSystem (sed_command c); EvSystem "make"])%list.
Proof.
  intros Hc He Hcd Hurl Hcomp Hsrc.
  destruct (@run_pormaps_install_completes c e src url w wa wb w1 s3 Hc He Hcd Hurl Hcomp Hsrc)
    as (w' & Heq & Hev).
  rewrite Heq. split; [reflexivity | exact Hev].
Qed.

(** *** What the script never does *)

Lemma ao_ret P {A} (a : A) : adds_only P (@ret os A a).
Proof. intros w; exists []; simpl; rewrite app_nil_r; auto. Qed.

Lemma ao_raise P {A} e : adds_only P (@raise os A e).
Proof. intros w; exists []; simpl; rewrite app_nil_r; auto. Qed.

Lemma ao_lift P {A} (o : outcome A) : adds_only P (@lift os A o).
Proof. intros w; exists []; simpl; rewrite app_nil_r; auto. Qed.

Lemma ao_print (P : event -> Prop) text : P (EvPrint text) -> adds_only P (@print os text).
Proof. intros H w; exists [EvPrint text]; auto. Qed.

Lemma ao_call (P : event -> Prop) {A} ev (f : state os -> answer A * state os) :
  P ev -> adds_only P (call ev f).
Proof.
  intros H w; exists [ev]. unfold call. destruct (f (machine w)); auto.
Qed.

Lemma ao_isfile (P : event -> Prop) path :
  P (EvIsfile path) -> adds_only P (@os_path_isfile os path).
Proof. intros H w; exists [EvIsfile path]; auto. Qed.

Lemma ao_access (P : event -> Prop) path :
  P (EvAccess path) -> adds_only P (@os_access_X_OK os path).
Proof. intros H w; exists [EvAccess path]; auto. Qed.

Lemma ao_os_system (P : event -> Prop) command :
  P (EvSystem command) -> adds_only P (@os_system os command).
Proof.
  intros H w. unfold os_system. destruct (has_nul command).
  - apply ao_raise.
  - exists [EvSystem command]. destruct (sys_shell os command (machine w)); auto.
Qed.

Lemma ao_bind_post (P : event -> Prop) {A B} (R : A -> Prop)
    (m : M os A) (k : A -> M os B) :
  adds_only P m ->
  (forall w a w', m w = (Returned a, w') -> R a) ->
  (forall a, R a -> adds_only P (k a)) ->
  adds_only P (bind m k).
Proof.
  intros Hm HR Hk w. unfold bind. destruct (Hm w) as (l & Hl & HP).
  destruct (m w) as [[a|e] w1] eqn:E; simpl in Hl.
  - destruct (Hk a (HR _ _ _ E) w1) as (l' & Hl' & HP').
    exists (l ++ l')%list. rewrite Hl', Hl, app_assoc. split; [reflexivity|].
    apply Forall_app; auto.
  - exists l; auto.
Qed.

Lemma ao_bind (P : event -> Prop) {A B} (m : M os A) (k : A -> M os B) :
  adds_only P m -> (forall a, adds_only P (k a)) -> adds_only P (bind m k).
Proof. intros Hm Hk. apply ao_bind_post with (R := fun _ => True); auto. Qed.

Lemma ao_try_except (P : event -> Prop) {A} (body : M os A) handler :
  adds_only P body -> (forall text, adds_only P (handler text)) ->
  adds_only P (try_except body handler).
Proof.
  intros Hb Hh w. unfold try_except. destruct (Hb w) as (l & Hl & HP).
  destruct (body w) as [[a|[cls text|arg]] w1]; simpl in Hl; try (exists l; auto; fail).
  destruct (Hh text w1) as (l' & Hl' & HP').
  exists (l ++ l')%list. rewrite Hl', Hl, app_assoc. split; [reflexivity|].
  apply Forall_app; auto.
Qed.

Lemma ao_ompi_sanity (P : event -> Prop) path :
  P (EvIsfile path) -> P (EvAccess path) -> adds_only P (@_ompi_sanity os path).
Proof.
  intros H1 H2. unfold _ompi_sanity.
  apply ao_bind; [|intros _]; apply ao_try_except;
    try (intro; apply ao_raise);
    (apply ao_bind; [first [now apply ao_isfile | now apply ao_access] |]);
    intros b; destruct (negb b); first [apply ao_raise | apply ao_ret].
Qed.

Lemma system_toolchain_returned (g : Globals) src v (w w' : World os) r :
  run_ompi_install g false src v w = (Returned r, w') ->
  r = ("/usr/bin/mpiCC", "/usr/bin/mpirun", v).
Proof. cbn. now intros [= <- _]. Qed.

(** X7. With [GET_OPENMPI] false the script makes no download request
    and opens or extracts no archive, and the only commands it hands to the
    shell are the clone of the repository, the substitution of
    "/usr/bin/mpiCC" into the makefile, make, and the append of the
    activation line. *)
Theorem script_without_source_build (g : Globals) (w : World os) :
  GET_OPENMPI g = false ->
  exists l,
    events (snd (script g w)) = (events w ++ l)%list /\ Forall system_tools_only l.
Proof.
  intros HG. revert w. change (@adds_only os system_tools_only _ (script g)).
  unfold script, script_with. rewrite HG.
  apply ao_bind; [now apply ao_call | intros cwd].
  apply ao_bind; [now apply ao_call | intros _].
  apply ao_bind; [now apply ao_call | intros _].
  apply ao_bind_post with (R := fun r => r = ("/usr/bin/mpiCC", "/usr/bin/mpirun", "5.0.9")).
  - unfold run_ompi_install.
    repeat (apply ao_bind; [|intro]); try apply ao_ret. now apply ao_print.
  - intros w0 r w0'. apply system_toolchain_returned.
  - intros r ->.
    apply ao_bind; [now apply ao_print | intros _].
    apply ao_bind; [|intros _].
    + unfold run_pormaps_install.
      apply ao_bind; [now apply ao_ompi_sanity | intros _].
      apply ao_bind; [now apply ao_ompi_sanity | intros _].
      apply ao_bind; [now apply ao_call | intros _].
      apply ao_bind; [|intros _].
      * apply ao_try_except; [|intro; apply ao_raise].
        apply ao_bind; [|intro; apply ao_ret].
        apply ao_os_system. simpl. auto.
      * apply ao_bind; [now apply ao_call | intros _].
        apply ao_bind; [apply ao_os_system; simpl; auto | intros _].
        apply ao_bind; [apply ao_os_system; simpl; auto | intros _].
        apply ao_ret.
    + unfold register_environment. rewrite HG. cbn [andb].
      apply ao_bind; [apply ao_os_system; simpl; auto 6 | intros _].
      apply ao_ret.
Qed.

(** *** How the script can end the process *)

Lemma eo_of_roe (Q : string -> Prop) {A} (m : M os A) :
  raises_only_Exception m -> exits_only Q m.
Proof. intros H w arg w' E. apply H in E. discriminate. Qed.

Lemma eo_bind (Q : string -> Prop) {A B} (m : M os A) (k : A -> M os B) :
  exits_only Q m -> (forall a, exits_only Q (k a)) -> exits_only Q (bind m k).
Proof.
  intros Hm Hk w arg w'. unfold bind.
  destruct (m w) as [[a|e] w1] eqn:E.
  - apply Hk.
  - intros [= -> <-]. exact (Hm _ _ _ E).
Qed.

Lemma eo_ompi_sanity (path : string) : exits_only sanity_message (@_ompi_sanity os path).
Proof.
  intros w arg w'. rewrite ompi_sanity_cases. cbv zeta.
  destruct (negb _); [|destruct (negb _)]; intros [= <- _]; exists path; auto.
Qed.

(** The clone step of the script returns: its command is accepted. *)
Lemma clone_accepted (url : string) handler (w : World os) :
  has_nul url = false ->
  exists w', try_except (os_system ("git clone " ++ url) ;; ret tt) handler w
             = (Returned tt, w').
Proof.
  intros H. unfold try_except.
  rewrite os_system_bind by (rewrite has_nul_append; exact H).
  eexists; reflexivity.
Qed.

Lemma eo_run_pormaps_install (c e src : string) :
  exits_only sanity_message (@run_pormaps_install os c e src POREMAPS_GIT_URL).
Proof.
  unfold run_pormaps_install.
  apply eo_bind; [apply eo_ompi_sanity | intros _].
  apply eo_bind; [apply eo_ompi_sanity | intros _].
  apply eo_bind; [apply eo_of_roe; apply roe_call | intros _].
  apply eo_bind; [|intros _; apply eo_of_roe; apply roe_after_clone].
  intros w arg w' H.
  destruct (@clone_accepted POREMAPS_GIT_URL
              (fun e0 => sys_exit ("ERROR: Cloning " ++ POREMAPS_GIT_URL ++ " failed." ++ nl
                                   ++ "Error: " ++ e0)) w eq_refl) as [w1 Hw1].
  rewrite Hw1 in H. discriminate.
Qed.

Lemma roe_register_environment g e src v :
  raises_only_Exception (@register_environment os g e src v).
Proof. unfold register_environment. auto 10 with escapes. Qed.

(** X8. Whatever the machine does and whatever the flags are, the script
    ends the process through [sys.exit] only with one of the two messages
    of the sanity check: the clone-failure message is never its last
    word. *)
Theorem script_exits_only_on_failed_check
    (g : Globals) (w w' : World os) (arg : string) :
  script g w = (Raised (SystemExit arg), w') ->
  exists path, arg = missing_message path \/ arg = not_executable_message path.
Proof.
  revert w arg w'. change (@exits_only os sanity_message _ (script g)).
  unfold script, script_with.
  apply eo_bind; [apply eo_of_roe; apply roe_call | intros cwd].
  apply eo_bind; [apply eo_of_roe; apply roe_call | intros _].
  apply eo_bind; [apply eo_of_roe; apply roe_call | intros _].
  apply eo_bind; [apply eo_of_roe; apply roe_run_ompi_install | intros [[c e] v]].
  apply eo_bind; [apply eo_of_roe; apply roe_print | intros _].
  apply eo_bind; [apply eo_run_pormaps_install | intros _].
  apply eo_of_roe. apply roe_register_environment.
Qed.

End Further.

(** ** Further properties of the strings the script builds *)


Lemma nonempty_length (s : string) : s <> "" -> 1 <= String.length s.
Proof. destruct s; [congruence | simpl; lia]. Qed.

(** X5. For a version X.Y.Z, the directory of the download URL is
    "v<X>.<Y>", the release series of that version, exactly when X and Y
    are one character each: with a longer major or minor component the
    URL names another directory. *)
Theorem ompi_url_release_directory (X Y Z : string) :
  X <> "" -> Y <> "" ->
  (ompi_url (X ++ "." ++ Y ++ "." ++ Z)
   = Returned (release_url X Y (X ++ "." ++ Y ++ "." ++ Z))
   <-> String.length X = 1 /\ String.length Y = 1).
Proof.
  intros HX HY. split.
  - intros H.
    pose proof (nonempty_length HX) as LX. pose proof (nonempty_length HY) as LY.
    set (v := X ++ "." ++ Y ++ "." ++ Z) in *.
    assert (Lv : 3 <= String.length v)
      by (unfold v; rewrite !length_append; simpl; lia).
    destruct (@get_in_range v 0) as [c0 H0]; [lia|].
    destruct (@get_in_range v 2) as [c2 H2]; [lia|].
    rewrite (ompi_url_of_chars v H0 H2) in H. injection H as H.
    apply (f_equal String.length) in H. unfold release_url in H.
    simpl in H. repeat (rewrite length_append in H; simpl in H). lia.
  - intros [LX LY].
    destruct X as [|x [|]]; try discriminate. destruct Y as [|y [|]]; try discriminate.
    reflexivity.
Qed.





(** ** Running the substitution again *)





(** ** The theorems at work on the box *)

Lemma run_ompi_install_falls_back_offline :
  (exists cls text,
     Exception "ConnectionError" "Network is unreachable" = Exception cls text
     /\ @run_ompi_install Box.box_os script_globals true "/work/OpenMPI" "5.0.9" Box.offline
     = (Returned ("/usr/bin/mpiCC", "/usr/bin/mpirun", "5.0.9"),
        log (EvPrint ("### ERROR: " ++ text ++ nl ++ fallback_notice))
          (snd (acquisition_region script_globals "5.0.9"
                  "https://download.open-mpi.org/release/open-mpi/v5.0/openmpi-5.0.9.tar.gz"
                  (snd (os_chdir "/work/OpenMPI" Box.offline))))
          (machine
             (snd (acquisition_region script_globals "5.0.9"
                     "https://download.open-mpi.org/release/open-mpi/v5.0/openmpi-5.0.9.tar.gz"
                     (snd (os_chdir "/work/OpenMPI" Box.offline)))))))
  /\ (forall cwd, path_join cwd ("openmpi-" ++ "5.0.9" ++ "/build/bin/mpiCC")
                  <> "/usr/bin/mpiCC")
  /\ (forall cwd, path_join cwd ("openmpi-" ++ "5.0.9" ++ "/build/bin/mpirun")
                  <> "/usr/bin/mpirun").
Proof.
  apply (@run_ompi_install_falls_back Box.box_os script_globals "/work/OpenMPI" "5.0.9"
           "https://download.open-mpi.org/release/open-mpi/v5.0/openmpi-5.0.9.tar.gz"
           Box.offline (snd (os_chdir "/work/OpenMPI" Box.offline)) _
           (Exception "ConnectionError" "Network is unreachable")).
  - vm_compute; reflexivity.
  - vm_compute; reflexivity.
  - vm_compute; reflexivity.
Defined.

Lemma ompi_sanity_on_the_box :
  fst (_ompi_sanity "/usr/bin/absent" Box.offline)
  = Raised (SystemExit (missing_message "/usr/bin/absent"))
  /\ fst (_ompi_sanity "/usr/bin/README" Box.offline)
     = Raised (SystemExit (not_executable_message "/usr/bin/README"))
  /\ fst (_ompi_sanity "/usr/bin/mpiCC" Box.offline) = Returned tt.
Proof.
  split; [|split].
  - apply (proj1 (@ompi_sanity_outcomes Box.box_os "/usr/bin/absent" Box.offline)).
    vm_compute; reflexivity.
  - apply (proj1 (proj2 (@ompi_sanity_outcomes Box.box_os "/usr/bin/README" Box.offline)));
      vm_compute; reflexivity.
  - apply (proj2 (proj2 (@ompi_sanity_outcomes Box.box_os "/usr/bin/mpiCC" Box.offline))).
    split; vm_compute; reflexivity.
Defined.




Lemma ompi_url_of_5_0_9 :
  exists c0 c2 rest,
    String.get 0 "5.0.9" = Some c0 /\ String.get 2 "5.0.9" = Some c2 /\
    ompi_url "5.0.9" = Returned ("https://download.open-mpi.org/release/open-mpi/v"
                                 ++ String c0 "" ++ "." ++ String c2 "" ++ "/openmpi-"
                                 ++ "5.0.9" ++ ".tar.gz") /\
    events (snd (@run_ompi_install Box.box_os script_globals true "/work/OpenMPI" "5.0.9"
                   Box.online))
    = (events (snd (os_chdir "/work/OpenMPI" Box.online))
         ++ EvPrint ("### DOWNLOADING OpenMPI " ++ "5.0.9" ++ " ###")
         :: EvHttpGet ("https://download.open-mpi.org/release/open-mpi/v"
                       ++ String c0 "" ++ "." ++ String c2 "" ++ "/openmpi-" ++ "5.0.9"
                       ++ ".tar.gz") :: rest)%list.
Proof.
  apply (@ompi_url_from_first_and_third_character Box.box_os script_globals
           "/work/OpenMPI" "5.0.9" Box.online (snd (os_chdir "/work/OpenMPI" Box.online))).
  - exists "5", "0", "9". repeat split; discriminate.
  - vm_compute; reflexivity.
Defined.

Lemma clone_failure_on_the_box :
  @run_pormaps_install Box.box_os "/usr/bin/mpiCC" "/usr/bin/mpirun"
    "/work/poremaps_Krach2025" POREMAPS_GIT_URL Box.offline
  = bind (os_chdir "poremaps/src")
      (fun _ => bind (os_system (sed_command "/usr/bin/mpiCC"))
                  (fun _ => bind (os_system "make") (fun _ => ret tt)))
      (snd (os_system ("git clone " ++ POREMAPS_GIT_URL)
              (snd (os_chdir "/work/poremaps_Krach2025"
                      (snd (_ompi_sanity "/usr/bin/mpirun"
                              (snd (_ompi_sanity "/usr/bin/mpiCC" Box.offline))))))))
  /\ (forall arg,
        fst (@run_pormaps_install Box.box_os "/usr/bin/mpiCC" "/usr/bin/mpirun"
               "/work/poremaps_Krach2025" POREMAPS_GIT_URL Box.offline)
        <> Raised (SystemExit arg))
  /\ (exists rest,
        events (snd (@run_pormaps_install Box.box_os "/usr/bin/mpiCC" "/usr/bin/mpirun"
                       "/work/poremaps_Krach2025" POREMAPS_GIT_URL Box.offline))
        = (events (snd (os_system ("git clone " ++ POREMAPS_GIT_URL)
              (snd (os_chdir "/work/poremaps_Krach2025"
                      (snd (_ompi_sanity "/usr/bin/mpirun"
                              (snd (_ompi_sanity "/usr/bin/mpiCC" Box.offline))))))))
             ++ EvChdir "poremaps/src" :: rest)%list).
Proof.
  apply (@clone_failure_is_not_detected Box.box_os "/usr/bin/mpiCC" "/usr/bin/mpirun"
           "/work/poremaps_Krach2025" POREMAPS_GIT_URL Box.offline
           (snd (_ompi_sanity "/usr/bin/mpiCC" Box.offline))
           (snd (_ompi_sanity "/usr/bin/mpirun"
                   (snd (_ompi_sanity "/usr/bin/mpiCC" Box.offline))))
           (snd (os_chdir "/work/poremaps_Krach2025"
                   (snd (_ompi_sanity "/usr/bin/mpirun"
                           (snd (_ompi_sanity "/usr/bin/mpiCC" Box.offline))))))
           _ 32512%Z).
  - vm_compute; reflexivity.
  - vm_compute; reflexivity.
  - vm_compute; reflexivity.
  - vm_compute; reflexivity.
  - discriminate.
Defined.

Lemma script_with_test_flag_cleared :
  @script Box.box_os script_globals Box.offline
  = @script Box.box_os (set_POREMAPSTEST false script_globals) Box.offline.
Proof.
  apply (@script_ignores_POREMAPSTEST Box.box_os script_globals
           (set_POREMAPSTEST false script_globals) Box.offline); reflexivity.
Defined.

Lemma run_ompi_install_version_5_raises :
  (forall w1, os_chdir "/work/OpenMPI" Box.online = (Returned tt, w1) ->
              @run_ompi_install Box.box_os script_globals true "/work/OpenMPI" "5" Box.online
              = (Raised (Exception "IndexError" "string index out of range"), w1))
  /\ (forall r w',
        @run_ompi_install Box.box_os script_globals true "/work/OpenMPI" "5" Box.online
        <> (Returned r, w'))
  /\ events (snd (@run_ompi_install Box.box_os script_globals true "/work/OpenMPI" "5"
                    Box.online))
     = (events Box.online ++ [EvChdir "/work/OpenMPI"])%list.
Proof.
  apply (@run_ompi_install_short_version_raises Box.box_os script_globals
           "/work/OpenMPI" "5" Box.online).
  simpl; lia.
Defined.

(** The two definitions are not equal as functions: on a URL that
    [os.system] refuses, each ends the process with its own message. *)
Lemma install_definitions_differ_on_refused_command :
  @run_pormaps_install_first Box.box_os "/usr/bin/mpiCC" "/usr/bin/mpirun"
    "/work/poremaps_Krach2025" Box.url_with_nul Box.offline
  <> @run_pormaps_install Box.box_os "/usr/bin/mpiCC" "/usr/bin/mpirun"
       "/work/poremaps_Krach2025" Box.url_with_nul Box.offline.
Proof. vm_compute. discriminate. Qed.

Lemma install_definitions_agree_on_the_box :
  (has_nul POREMAPS_GIT_URL = false ->
   @run_pormaps_install_first Box.box_os "/usr/bin/mpiCC" "/usr/bin/mpirun"
     "/work/poremaps_Krach2025" POREMAPS_GIT_URL Box.offline
   = @run_pormaps_install Box.box_os "/usr/bin/mpiCC" "/usr/bin/mpirun"
       "/work/poremaps_Krach2025" POREMAPS_GIT_URL Box.offline)
  /\ snd (@run_pormaps_install_first Box.box_os "/usr/bin/mpiCC" "/usr/bin/mpirun"
            "/work/poremaps_Krach2025" POREMAPS_GIT_URL Box.offline)
     = snd (@run_pormaps_install Box.box_os "/usr/bin/mpiCC" "/usr/bin/mpirun"
              "/work/poremaps_Krach2025" POREMAPS_GIT_URL Box.offline)
  /\ exit_status (fst (@run_pormaps_install_first Box.box_os "/usr/bin/mpiCC"
                         "/usr/bin/mpirun" "/work/poremaps_Krach2025" POREMAPS_GIT_URL
                         Box.offline))
     = exit_status (fst (@run_pormaps_install Box.box_os "/usr/bin/mpiCC"
                           "/usr/bin/mpirun" "/work/poremaps_Krach2025" POREMAPS_GIT_URL
                           Box.offline))
  /\ script_with (@run_pormaps_install_first Box.box_os) script_globals Box.online
     = script_with (@run_pormaps_install Box.box_os) script_globals Box.online.
Proof.
  exact (@install_definitions_agree Box.box_os "/usr/bin/mpiCC" "/usr/bin/mpirun"
           "/work/poremaps_Krach2025" POREMAPS_GIT_URL Box.offline script_globals Box.online).
Defined.

(** ** The further theorems at work *)

(** The mirror serves the archive and the source tree is on disk: the
    region completes, although no build tool ran. *)
Lemma run_ompi_install_result_on_the_mirror :
  "5.0.9" = "5.0.9"
  /\ (("/work/OpenMPI/openmpi-5.0.9/build/bin/mpiCC" = "/usr/bin/mpiCC"
       /\ "/work/OpenMPI/openmpi-5.0.9/build/bin/mpirun" = "/usr/bin/mpirun")
      \/ (true = true
          /\ "/work/OpenMPI/openmpi-5.0.9/build/bin/mpiCC" <> "/usr/bin/mpiCC"
          /\ "/work/OpenMPI/openmpi-5.0.9/build/bin/mpirun" <> "/usr/bin/mpirun"
          /\ exists cwd1 cwd2,
               "/work/OpenMPI/openmpi-5.0.9/build/bin/mpiCC"
               = path_join cwd1 ("openmpi-" ++ "5.0.9" ++ "/build/bin/mpiCC")
               /\ "/work/OpenMPI/openmpi-5.0.9/build/bin/mpirun"
                  = path_join cwd2 ("openmpi-" ++ "5.0.9" ++ "/build/bin/mpirun"))).
Proof.
  apply (@run_ompi_install_result Mirror.mirror_os script_globals true "/work/OpenMPI"
           "5.0.9" (Mirror.on_mirror Mirror.second_run)
           (snd (@run_ompi_install Mirror.mirror_os script_globals true "/work/OpenMPI"
                   "5.0.9" (Mirror.on_mirror Mirror.second_run)))).
  vm_compute; reflexivity.
Defined.


(** Every command ends with status 32512 and the function returns all the same. *)
Lemma run_pormaps_install_on_a_second_run :
  fst (@run_pormaps_install Box.box_os "/usr/bin/mpiCC" "/usr/bin/mpirun"
         "/work/poremaps_Krach2025" POREMAPS_GIT_URL (Box.start Mirror.second_run))
  = Returned tt
  /\ events (snd (@run_pormaps_install Box.box_os "/usr/bin/mpiCC" "/usr/bin/mpirun"
                    "/work/poremaps_Krach2025" POREMAPS_GIT_URL
                    (Box.start Mirror.second_run)))
     = (events (snd (os_chdir "/work/poremaps_Krach2025"
                       (snd (_ompi_sanity "/usr/bin/mpirun"
                               (snd (_ompi_sanity "/usr/bin/mpiCC"
                                       (Box.start Mirror.second_run)))))))
        ++ [EvSystem ("git clone " ++ POREMAPS_GIT_URL); EvChdir "poremaps/src";
            EvSystem (sed_command "/usr/bin/mpiCC"); EvSystem "make"])%list.
Proof.
  apply (@run_pormaps_install_ignores_statuses Box.box_os "/usr/bin/mpiCC" "/usr/bin/mpirun"
           "/work/poremaps_Krach2025" POREMAPS_GIT_URL (Box.start Mirror.second_run)
           (snd (_ompi_sanity "/usr/bin/mpiCC" (Box.start Mirror.second_run)))
           (snd (_ompi_sanity "/usr/bin/mpirun"
                   (snd (_ompi_sanity "/usr/bin/mpiCC" (Box.start Mirror.second_run)))))
           (snd (os_chdir "/work/poremaps_Krach2025"
                   (snd (_ompi_sanity "/usr/bin/mpirun"
                           (snd (_ompi_sanity "/usr/bin/mpiCC"
                                   (Box.start Mirror.second_run)))))))
           (snd (Box.chdir "poremaps/src"
                   (snd (Box.chdir "/work/poremaps_Krach2025" Mirror.second_run))))).
  - vm_compute; reflexivity.
  - vm_compute; reflexivity.
  - vm_compute; reflexivity.
  - vm_compute; reflexivity.
  - vm_compute; reflexivity.
  - vm_compute; reflexivity.
Defined.

Lemma ompi_url_release_directory_of_5_0_9 :
  ompi_url ("5" ++ "." ++ "0" ++ "." ++ "9")
  = Returned (release_url "5" "0" ("5" ++ "." ++ "0" ++ "." ++ "9"))
  <-> String.length "5" = 1 /\ String.length "0" = 1.
Proof.
  apply (@ompi_url_release_directory "5" "0" "9"); discriminate.
Defined.

(** With a two-character minor component the URL names the directory
    "v1.1", not "v1.10". *)
Lemma ompi_url_release_directory_of_1_10_7 :
  ompi_url ("1" ++ "." ++ "10" ++ "." ++ "7")
  = Returned (release_url "1" "10" ("1" ++ "." ++ "10" ++ "." ++ "7"))
  <-> String.length "1" = 1 /\ String.length "10" = 1.
Proof.
  apply (@ompi_url_release_directory "1" "10" "7"); discriminate.
Defined.

Lemma script_without_source_build_on_the_box :
  exists l,
    events (snd (@script Box.box_os
                   {| GET_OPENMPI := false; VERBOSE := true; POREMAPSTEST := true |}
                   Box.online))
    = (events Box.online ++ l)%list
    /\ Forall system_tools_only l.
Proof.
  apply (@script_without_source_build Box.box_os
           {| GET_OPENMPI := false; VERBOSE := true; POREMAPSTEST := true |} Box.online).
  reflexivity.
Defined.

Lemma script_exit_without_toolchain :
  exists path,
    missing_message "/usr/bin/mpiCC" = missing_message path
    \/ missing_message "/usr/bin/mpiCC" = not_executable_message path.
Proof.
  apply (@script_exits_only_on_failed_check Box.box_os script_globals
           (Box.start Mirror.bare)
           (snd (@script Box.box_os script_globals (Box.start Mirror.bare)))
           (missing_message "/usr/bin/mpiCC")).
  vm_compute; reflexivity.
Defined.

